(** * flytekit.annotated.promise: deferred values and boolean expressions

    A shallow embedding of [flytekit/annotated/promise.py]: the [Promise]
    class, [ComparisonExpression], [ConjunctionExpression] and
    [create_task_output], followed by the properties the specification
    states about them.

    Python objects are embedded as values.  A computation is a function from
    the lines already written to standard output to an outcome (a returned
    value or a raised exception) and the lines written afterwards. *)

From Stdlib Require Import Ascii.
From stdpp Require Import base strings list list_monad gmap.
From stdpp Require Import pretty.

(** ** Exceptions, outcomes and the computation monad *)

(** The exception classes the module (and the standard library calls it
    makes) raises, each with its message. *)
Inductive exn : Type :=
  | ValueError (msg : string)
  | AttributeError (msg : string)
  | IndexError (msg : string)
  | TypeError (msg : string)
  | SyntaxError (msg : string).

Inductive outcome (A : Type) : Type :=
  | Return (a : A)
  | Raise (e : exn).
Arguments Return {A} a.
Arguments Raise {A} e.

(** [Py A]: a Python computation yielding an [A]; the state is the list of
    lines printed so far. *)
Definition Py (A : Type) : Type := list string → outcome A * list string.

Definition Py_ret {A} (a : A) : Py A := λ out, (Return a, out).

Definition Py_bind {A B} (f : A → Py B) (m : Py A) : Py B :=
  λ out, match m out with
         | (Return a, out') => f a out'
         | (Raise e, out') => (Raise e, out')
         end.

Global Instance Py_mret : MRet Py := @Py_ret.
Global Instance Py_mbind : MBind Py := @Py_bind.

Definition raise {A} (e : exn) : Py A := λ out, (Raise e, out).

(** [print(s)] appends one line to standard output. *)
Definition print (s : string) : Py unit := λ out, (Return (), out ++ [s]).

(** [for x in xs: body(x)], stopping at the first exception. *)
Fixpoint for_each {A} (body : A → Py unit) (xs : list A) : Py unit :=
  match xs with
  | [] => mret ()
  | x :: rest => body x;; for_each body rest
  end.

(** ** The two operator enumerations *)

Inductive ConjunctionOps : Type := AND | OR.

Inductive ComparisonOps : Type := EQ | NE | GT | GTE | LT | LTE.

Definition ConjunctionOps_value (op : ConjunctionOps) : string :=
  match op with AND => "and" | OR => "or" end.

Definition ComparisonOps_value (op : ComparisonOps) : string :=
  match op with
  | EQ => "=" | NE => "!=" | GT => ">" | GTE => ">=" | LT => "<" | LTE => "<="
  end.

(** The members of [ComparisonOps] by name, in declaration order. *)
Definition ComparisonOps_members : list (string * ComparisonOps) :=
  [("EQ", EQ); ("NE", NE); ("GT", GT); ("GTE", GTE); ("LT", LT); ("LTE", LTE)].

Fixpoint assoc_lookup {V} (name : string) (table : list (string * V)) : option V :=
  match table with
  | [] => None
  | (k, v) :: rest => if decide (k = name) then Some v else assoc_lookup name rest
  end.

(** [ComparisonOps.<name>]: attribute access on the enumeration class; a name
    that is not a member raises [AttributeError(name)]. *)
Definition ComparisonOps_getattr (name : string) : Py ComparisonOps :=
  match assoc_lookup name ComparisonOps_members with
  | Some op => mret op
  | None => raise (AttributeError name)
  end.

(** ** External types *)

(** The types the module imports from the rest of flytekit: the declared
    types of node outputs ([sdk_type], compared with [!=]), the literal
    model, and native Python values (anything that is not a [Promise]). *)
Class FlyteTypes : Type := {
  SdkType : Type;
  SdkType_eq_dec :: EqDecision SdkType;
  Literal : Type;
  Any : Type;
}.

Section DataModel.
Context `{!FlyteTypes}.

(** Modelled from the spec: [flytekit.common.promise.NodeOutput] is not part
    of the sources; the node-output reference exposes the producing node
    (with its [id]), the declared type and the variable name. *)
Record SdkNode : Type := mkSdkNode { SdkNode_id : string }.

(** Modelled from the spec: the node-output reference itself, with the
    attributes [sdk_node], [sdk_type] and [var] the module reads. *)
Record NodeOutput : Type := mkNodeOutput {
  sdk_node : SdkNode;
  sdk_type : SdkType;
  NodeOutput_var : string;
}.

Definition node_id (r : NodeOutput) : string := SdkNode_id (sdk_node r).

(** The values held in the slots typed [Union[NodeOutput, Literal]], which
    the code also sets to [None]. *)
Inductive PyValue : Type :=
  | PyNone
  | PyLiteral (l : Literal)
  | PyNodeOutput (r : NodeOutput).

(** *** class Promise: attributes, constructor and properties *)

(** The attributes of a [Promise] object.  [_ref = None] stands for the
    attribute never having been assigned: [__init__] assigns [self._ref]
    only in the branch for a node output. *)
Record Promise : Type := mkPromise {
  _var : string;
  _promise_ready : bool;
  _val : PyValue;
  _ref : option NodeOutput;
}.

Definition Promise___init__ (var : string) (val : PyValue) : Promise :=
  let self := {| _var := var; _promise_ready := true; _val := val; _ref := None |} in
  match val with
  | PyNodeOutput r =>
      {| _var := _var self; _promise_ready := false; _val := PyNone; _ref := Some r |}
  | _ => self
  end.

Definition Promise_is_ready (self : Promise) : Py bool := mret (_promise_ready self).

Definition Promise_val (self : Promise) : Py PyValue := mret (_val self).

Definition Promise_ref (self : Promise) : Py NodeOutput :=
  match _ref self with
  | Some r => mret r
  | None => raise (AttributeError "'Promise' object has no attribute '_ref'")
  end.

Definition Promise_var (self : Promise) : Py string := mret (_var self).

(** A Python object handed to a comparison: [isinstance(x, Promise)] or any
    other value. *)
Inductive Operand : Type :=
  | OPromise (p : Promise)
  | OAny (a : Any).

End DataModel.

(** ** External services *)

(** The engine's conversion of a Python object to a literal of a given type,
    [flytekit.engine.python_value_to_idl_literal], and the ambient
    [FlyteContext.current_context()] it is called with. *)
Class Engine `{!FlyteTypes} : Type := {
  FlyteContext : Type;
  current_context : FlyteContext;
  python_value_to_idl_literal : FlyteContext → Operand → SdkType → outcome Literal;
}.

(** The built-ins [collections.namedtuple] calls: [str.isidentifier],
    [keyword.iskeyword] and [repr] on a name, and [eval] on the source of the
    constructor it generates,
    [lambda _cls, f1, ..., fn: _tuple_new(_cls, (f1, ..., fn))], given here
    by the field names [f1, ..., fn].  The interpreter normalises the
    identifiers of that source, and refuses it with [SyntaxError] when two
    parameters are then the same. *)
Class StrBuiltins : Type := {
  isidentifier : string → bool;
  iskeyword : string → bool;
  repr : string → string;
  eval_new : list string → outcome unit;
}.

Section Operations.
Context `{!FlyteTypes} `{!Engine} `{!StrBuiltins}.

(** Lifts an outcome of the engine into a computation. *)
Definition lift_outcome {A} (o : outcome A) : Py A := λ out, (o, out).

(** ** class ComparisonExpression *)

Record ComparisonExpression : Type := mkComparisonExpression {
  ComparisonExpression__lhs : PyValue;
  ComparisonExpression__op : ComparisonOps;
  ComparisonExpression__rhs : PyValue;
}.

(** The variables [ComparisonExpression.__init__] updates while it looks at
    the two operands: [_type], [self._lhs] and [self._rhs], each [None] or
    set ([self._op] is assigned once, first). *)
Record init_state : Type := mkInitState {
  st_type : option SdkType;
  st_lhs : option NodeOutput;
  st_rhs : option NodeOutput;
}.

(** [self._lhs.var], [self._rhs.var] on such a slot. *)
Definition slot_var (slot : option NodeOutput) : Py string :=
  match slot with
  | Some r => mret (NodeOutput_var r)
  | None => raise (AttributeError "'NoneType' object has no attribute 'var'")
  end.

(** [if isinstance(lhs, Promise): ...] *)
Definition init_lhs (lhs : Operand) (st : init_state) : Py init_state :=
  match lhs with
  | OPromise p =>
      ready ← Promise_is_ready p;
      if ready : bool then raise (ValueError "Comparison of completed promise is not allowed.")
      else
        r ← Promise_ref p;
        mret {| st_type := Some (sdk_type r); st_lhs := Some r; st_rhs := st_rhs st |}
  | OAny _ => mret st
  end.

(** [if isinstance(rhs, Promise): ...] *)
Definition init_rhs (rhs : Operand) (st : init_state) : Py init_state :=
  match rhs with
  | OPromise p =>
      ready ← Promise_is_ready p;
      if ready : bool then raise (ValueError "Comparison of completed promise is not allowed.")
      else
        r ← Promise_ref p;
        let st := {| st_type := st_type st; st_lhs := st_lhs st; st_rhs := Some r |} in
        match st_type st with
        | Some t =>
            if decide (t ≠ sdk_type r) then
              lvar ← slot_var (st_lhs st);
              rvar ← slot_var (st_rhs st);
              raise (ValueError ("Comparison between non comparable types "
                                 +:+ lvar +:+ " & " +:+ rvar))
            else mret {| st_type := Some (sdk_type r); st_lhs := st_lhs st; st_rhs := st_rhs st |}
        | None => mret {| st_type := Some (sdk_type r); st_lhs := st_lhs st; st_rhs := st_rhs st |}
        end
  | OAny _ => mret st
  end.

(** [if slot is None: slot = python_value_to_idl_literal(current_context(), x, _type)] *)
Definition resolve (slot : option NodeOutput) (x : Operand) (t : SdkType) : Py PyValue :=
  match slot with
  | None =>
      l ← lift_outcome (python_value_to_idl_literal current_context x t);
      mret (PyLiteral l)
  | Some r => mret (PyNodeOutput r)
  end.

Definition ComparisonExpression___init__
    (lhs : Operand) (op : ComparisonOps) (rhs : Operand) : Py ComparisonExpression :=
  let st := {| st_type := None; st_lhs := None; st_rhs := None |} in
  st ← init_lhs lhs st;
  st ← init_rhs rhs st;
  match st_type st with
  | None => raise (ValueError "Either LHS or RHS should be a promise")
  | Some t =>
      l ← resolve (st_lhs st) lhs t;
      r ← resolve (st_rhs st) rhs t;
      mret {| ComparisonExpression__lhs := l;
              ComparisonExpression__op := op;
              ComparisonExpression__rhs := r |}
  end.

Definition ComparisonExpression_rhs (self : ComparisonExpression) : Py PyValue :=
  mret (ComparisonExpression__rhs self).

Definition ComparisonExpression_lhs (self : ComparisonExpression) : Py PyValue :=
  mret (ComparisonExpression__lhs self).

Definition ComparisonExpression_op (self : ComparisonExpression) : Py ComparisonOps :=
  mret (ComparisonExpression__op self).

(** The message of the three [__bool__] methods (in the source, [\\] is an
    escaped backslash). *)
Definition truth_value_message : string :=
  "Cannot perform truth value testing, This is a limitation in python. For Logical `and\or` use `&\|` (bitwise) instead".

(** ** class ConjunctionExpression *)

(** An operand of a conjunction is a comparison or a conjunction. *)
Inductive Expression : Type :=
  | Comparison (c : ComparisonExpression)
  | Conjunction (c : ConjunctionExpression)
with ConjunctionExpression : Type :=
  | mkConjunctionExpression (_lhs : Expression) (_rhs : Expression) (_op : ConjunctionOps).

Definition ConjunctionExpression___init__
    (lhs : Expression) (op : ConjunctionOps) (rhs : Expression) : ConjunctionExpression :=
  mkConjunctionExpression lhs rhs op.

Definition ConjunctionExpression_rhs (self : ConjunctionExpression) : Py Expression :=
  match self with mkConjunctionExpression _ rhs _ => mret rhs end.

Definition ConjunctionExpression_lhs (self : ConjunctionExpression) : Py Expression :=
  match self with mkConjunctionExpression lhs _ _ => mret lhs end.

Definition ConjunctionExpression_op (self : ConjunctionExpression) : Py ConjunctionOps :=
  match self with mkConjunctionExpression _ _ op => mret op end.

Definition ComparisonExpression___and__ (self : ComparisonExpression) (other : Expression)
    : Py ConjunctionExpression :=
  print "Comparison AND called";;
  mret (ConjunctionExpression___init__ (Comparison self) AND other).

Definition ComparisonExpression___or__ (self : ComparisonExpression) (other : Expression)
    : Py ConjunctionExpression :=
  print "Comparison OR called";;
  mret (ConjunctionExpression___init__ (Comparison self) OR other).

Definition ComparisonExpression___bool__ (self : ComparisonExpression) : Py bool :=
  raise (ValueError truth_value_message).

Definition ConjunctionExpression___and__ (self : ConjunctionExpression) (other : Expression)
    : Py ConjunctionExpression :=
  print "Conj AND called";;
  mret (ConjunctionExpression___init__ (Conjunction self) AND other).

Definition ConjunctionExpression___or__ (self : ConjunctionExpression) (other : Expression)
    : Py ConjunctionExpression :=
  print "Conj OR called";;
  mret (ConjunctionExpression___init__ (Conjunction self) OR other).

Definition ConjunctionExpression___bool__ (self : ConjunctionExpression) : Py bool :=
  raise (ValueError truth_value_message).

(** *** class Promise: operators *)

(** [ComparisonExpression(self, ComparisonOps.<name>, other)]: the arguments
    are evaluated left to right, so the member is looked up before the
    constructor runs. *)
Definition compare_as (name : string) (self : Promise) (other : Operand)
    : Py ComparisonExpression :=
  op ← ComparisonOps_getattr name;
  ComparisonExpression___init__ (OPromise self) op other.

Definition Promise___eq__ (self : Promise) (other : Operand) : Py ComparisonExpression :=
  compare_as "EQ" self other.

Definition Promise___ne__ (self : Promise) (other : Operand) : Py ComparisonExpression :=
  compare_as "NE" self other.

Definition Promise___gt__ (self : Promise) (other : Operand) : Py ComparisonExpression :=
  compare_as "GT" self other.

Definition Promise___ge__ (self : Promise) (other : Operand) : Py ComparisonExpression :=
  compare_as "GE" self other.

Definition Promise___lt__ (self : Promise) (other : Operand) : Py ComparisonExpression :=
  compare_as "LT" self other.

Definition Promise___le__ (self : Promise) (other : Operand) : Py ComparisonExpression :=
  compare_as "LE" self other.

Definition Promise___bool__ (self : Promise) : Py bool :=
  raise (ValueError truth_value_message).

Definition Promise___and__ (self : Promise) (other : Operand) : Py ConjunctionExpression :=
  raise (ValueError "Cannot perform Logical AND of Promise with other").

Definition Promise___or__ (self : Promise) (other : Operand) : Py ConjunctionExpression :=
  raise (ValueError "Cannot perform Logical OR of Promise with other").

(** [*args] and [**kwargs] are accepted and not looked at. *)
Definition Promise_with_overrides
    (self : Promise) (args : list Operand) (kwargs : list (string * Operand))
    : Py Promise :=
  ready ← Promise_is_ready self;
  (if negb ready then
     r ← Promise_ref self;
     print ("Forwarding to node " +:+ SdkNode_id (sdk_node r))
   else mret ());;
  mret self.

(** The operators [a & b], [a | b] and [bool(a)] on an expression: Python
    dispatches on the class of the left operand. *)
Definition and_ (a b : Expression) : Py Expression :=
  match a with
  | Comparison c => e ← ComparisonExpression___and__ c b; mret (Conjunction e)
  | Conjunction c => e ← ConjunctionExpression___and__ c b; mret (Conjunction e)
  end.

Definition or_ (a b : Expression) : Py Expression :=
  match a with
  | Comparison c => e ← ComparisonExpression___or__ c b; mret (Conjunction e)
  | Conjunction c => e ← ConjunctionExpression___or__ c b; mret (Conjunction e)
  end.

Definition bool_ (a : Expression) : Py bool :=
  match a with
  | Comparison c => ComparisonExpression___bool__ c
  | Conjunction c => ConjunctionExpression___bool__ c
  end.

Definition combine (op : ConjunctionOps) : Expression → Expression → Py Expression :=
  match op with AND => and_ | OR => or_ end.

(** [((e op1 e1) op2 e2) ...]: the operators applied one after the other to
    what has been built so far. *)
Fixpoint chain (e : Expression) (rest : list (ConjunctionOps * Expression)) : Py Expression :=
  match rest with
  | [] => mret e
  | (op, e') :: rest' => e'' ← combine op e e'; chain e'' rest'
  end.

(** The operands along the left spine of a tree, root last, down to the first
    node whose left child is not a conjunction. *)
Fixpoint left_spine (e : Expression) : Expression * list (ConjunctionOps * Expression) :=
  match e with
  | Conjunction (mkConjunctionExpression l r op) =>
      let '(base, ops) := left_spine l in (base, ops ++ [(op, r)])
  | Comparison _ => (e, [])
  end.

(** ** create_task_output *)

(** *** collections.namedtuple *)

(** The first loop of [namedtuple], over the type name and the field names. *)
Definition check_name (name : string) : Py unit :=
  if negb (isidentifier name) then
    raise (ValueError ("Type names and field names must be valid identifiers: " +:+ repr name))
  else if iskeyword name then
    raise (ValueError ("Type names and field names cannot be a keyword: " +:+ repr name))
  else mret ().

(** The second loop, over the field names, with the set [seen]. *)
Fixpoint check_fields (seen : gset string) (field_names : list string) : Py unit :=
  match field_names with
  | [] => mret ()
  | name :: rest =>
      if String.prefix "_" name then
        raise (ValueError ("Field names cannot start with an underscore: " +:+ repr name))
      else if decide (name ∈ seen) then
        raise (ValueError ("Encountered duplicate field name: " +:+ repr name))
      else check_fields ({[name]} ∪ seen) rest
  end.

(** [collections.namedtuple(typename, field_names)] for a list of strings:
    the two validation loops, then the [eval] of the generated constructor;
    the class it returns is represented by its [_fields]. *)
Definition namedtuple (typename : string) (field_names : list string) : Py (list string) :=
  for_each check_name (typename :: field_names);;
  check_fields ∅ field_names;;
  lift_outcome (eval_new field_names);;
  mret field_names.

(** *** class Output *)

(** An instance of [Output]: the named fields with their values, in order.
    The constructor call pairs the fields of the class with the promises. *)
Definition Output : Type := list (string * Promise).

Definition Output__fields (self : Output) : list string := self.*1.

(** What looking up an attribute on an [Output] gives: the value of a field,
    or the method the class defines. *)
Inductive Attribute : Type :=
  | AttrField (p : Promise)
  | AttrMethod (self : Output).

(** [self.__getattribute__(name)].  The class [Output] defines
    [with_overrides], which comes before the field accessors of its base
    class in the method resolution order; then come the accessors of the
    fields.  Attributes inherited from [tuple] and [object] are not
    modelled: every other name is reported missing. *)
Definition Output___getattribute__ (self : Output) (name : string) : Py Attribute :=
  if decide (name = "with_overrides") then mret (AttrMethod self)
  else match assoc_lookup name self with
       | Some p => mret (AttrField p)
       | None => raise (AttributeError ("'Output' object has no attribute " +:+ repr name))
       end.

(** [xs[i]] on a tuple or a list. *)
Definition getitem {A} (kind : string) (xs : list A) (i : nat) : Py A :=
  match xs !! i with
  | Some x => mret x
  | None => raise (IndexError (kind +:+ " index out of range"))
  end.

(** The call of [val.with_overrides] on what the lookup gave. *)
Definition Attribute_with_overrides
    (val : Attribute) (args : list Operand) (kwargs : list (string * Operand)) : Py unit :=
  match val with
  | AttrField p => Promise_with_overrides p args kwargs;; mret ()
  | AttrMethod _ => raise (AttributeError "'function' object has no attribute 'with_overrides'")
  end.

Definition Output_with_overrides
    (self : Output) (args : list Operand) (kwargs : list (string * Operand)) : Py Output :=
  name ← getitem "tuple" (Output__fields self) 0;
  val ← Output___getattribute__ self name;
  Attribute_with_overrides val args kwargs;;
  mret self.

(** The argument of [create_task_output]: [Union[List[Promise], Promise, None]]. *)
Inductive promises_arg : Type :=
  | ArgNone
  | ArgPromise (p : Promise)
  | ArgList (ps : list Promise).

(** Its result: [None], a promise, or an [Output]. *)
Inductive task_output : Type :=
  | OutNone
  | OutPromise (p : Promise)
  | OutTuple (o : Output).

Definition create_task_output (promises : promises_arg) : Py task_output :=
  match promises with
  | ArgNone => mret OutNone
  | ArgPromise p => mret (OutPromise p)
  | ArgList ps =>
      if decide (length ps = 0) then mret OutNone
      else if decide (length ps = 1) then
        p ← getitem "list" ps 0; mret (OutPromise p)
      else
        variables ← mapM Promise_var ps;
        fields ← namedtuple "TaskOutput" variables;
        mret (OutTuple (zip fields ps))
  end.

End Operations.

(** ** flytekit.tools.fast_registration *)

(** Modelled from the spec: the normalization of a single trailing slash,
    part of [get_additional_distribution_loc] below.  Removes one ["/"] at
    the end of a string, if there is one. *)
Fixpoint strip_trailing_slash (s : string) : string :=
  match s with
  | "" => ""
  | String c rest =>
      match rest with
      | "" => if Ascii.eqb c "/" then "" else s
      | _ => String c (strip_trailing_slash rest)
      end
  end.

(** Whether the last character of a string is ["/"]. *)
Fixpoint ends_with_slash (s : string) : bool :=
  match s with
  | "" => false
  | String c rest =>
      match rest with
      | "" => Ascii.eqb c "/"
      | _ => ends_with_slash rest
      end
  end.

(** Modelled from the spec: [get_additional_distribution_loc] is defined in
    [flytekit/tools/fast_registration.py], which is not part of the sources
    (only its test is).  It joins a remote storage location and a
    content-addressed identifier into ["<location>/<id>.tar.gz"], normalizing
    a single trailing slash on the location if present. *)
Definition get_additional_distribution_loc (remote_location identifier : string) : string :=
  strip_trailing_slash remote_location +:+ "/" +:+ identifier +:+ ".tar.gz".

(** ** Relations used to state the properties *)

Section Relations.
Context `{!FlyteTypes} `{!Engine} `{!StrBuiltins}.

(** The operands a program can build: promises come out of the constructor. *)
Inductive constructed : Operand → Prop :=
  | constructed_promise var val : constructed (OPromise (Promise___init__ var val))
  | constructed_any a : constructed (OAny a).

Definition is_promise (x : Operand) : bool :=
  match x with OPromise _ => true | OAny _ => false end.

Definition is_ready_promise (x : Operand) : bool :=
  match x with OPromise p => _promise_ready p | OAny _ => false end.

(** [resolves_to t x v]: the operand [x] can stand opposite a not-ready
    promise of declared type [t], and [v] is what the expression stores for
    it: the reference of a not-ready promise of the same declared type, or
    the literal the engine converts a native value to. *)
Inductive resolves_to (t : SdkType) : Operand → PyValue → Prop :=
  | resolves_promise var r :
      sdk_type r = t →
      resolves_to t (OPromise (Promise___init__ var (PyNodeOutput r))) (PyNodeOutput r)
  | resolves_native a l :
      python_value_to_idl_literal current_context (OAny a) t = Return l →
      resolves_to t (OAny a) (PyLiteral l).

(** The first word of the line [&] and [|] print, by the class of the left
    operand. *)
Definition class_tag (e : Expression) : string :=
  match e with Comparison _ => "Comparison" | Conjunction _ => "Conj" end.

Definition op_tag (op : ConjunctionOps) : string :=
  match op with AND => "AND" | OR => "OR" end.

Definition call_line (e : Expression) (op : ConjunctionOps) : string :=
  class_tag e +:+ " " +:+ op_tag op +:+ " called".

(** A name [namedtuple] takes as a type name, and as a field name. *)
Definition valid_type_name (name : string) : Prop :=
  isidentifier name = true ∧ iskeyword name = false.

Definition valid_field_name (name : string) : Prop :=
  valid_type_name name ∧ String.prefix "_" name = false.

(** What the second loop of [namedtuple] asks of the field names still to
    come, given the set of names seen. *)
Definition fresh_fields (seen : gset string) (names : list string) : Prop :=
  Forall (λ name, String.prefix "_" name = false) names
  ∧ NoDup names
  ∧ ∀ name, name ∈ names → name ∉ seen.

(** The line [Promise.with_overrides] prints, if any. *)
Definition forwarding_lines (p : Promise) : list string :=
  match _promise_ready p, _ref p with
  | false, Some r => ["Forwarding to node " +:+ SdkNode_id (sdk_node r)]
  | _, _ => []
  end.

End Relations.

(** ** A concrete engine, for examples *)

Inductive test_type : Type := Integer | Text.

Global Instance test_type_eq_dec : EqDecision test_type.
Proof. solve_decision. Defined.

Inductive test_value : Type :=
  | IntValue (n : Z)
  | TextValue (s : string).

Definition test_types : FlyteTypes :=
  {| SdkType := test_type; Literal := test_value; Any := test_value |}.

(** Integers convert to [Integer] literals and strings to [Text] literals;
    everything else is refused. *)
Definition test_convert (ctx : unit) (x : @Operand test_types) (t : test_type)
    : outcome test_value :=
  match x, t with
  | OAny (IntValue n), Integer => Return (IntValue n)
  | OAny (TextValue s), Text => Return (TextValue s)
  | _, _ => Raise (TypeError "value does not match the expected type")
  end.

Definition test_engine : @Engine test_types :=
  {| FlyteContext := unit; current_context := (); python_value_to_idl_literal := test_convert |}.

(** The string built-ins restricted to ASCII names: letters, digits and the
    underscore, not starting with a digit; the keywords of Python 3. *)
Definition is_id_start (c : ascii) : bool :=
  let n := nat_of_ascii c in
  bool_decide (65 ≤ n ≤ 90) || bool_decide (97 ≤ n ≤ 122) || bool_decide (n = 95).

Definition is_id_continue (c : ascii) : bool :=
  is_id_start c || bool_decide (48 ≤ nat_of_ascii c ≤ 57).

Definition ascii_isidentifier (s : string) : bool :=
  match s with
  | "" => false
  | String c rest => is_id_start c && forallb is_id_continue (String.list_ascii_of_string rest)
  end.

Definition kwlist : list string :=
  ["False"; "None"; "True"; "and"; "as"; "assert"; "async"; "await"; "break";
   "class"; "continue"; "def"; "del"; "elif"; "else"; "except"; "finally";
   "for"; "from"; "global"; "if"; "import"; "in"; "is"; "lambda"; "nonlocal";
   "not"; "or"; "pass"; "raise"; "return"; "try"; "while"; "with"; "yield"].

(** The first name of a list that repeats an earlier one. *)
Fixpoint first_duplicate (seen names : list string) : option string :=
  match names with
  | [] => None
  | name :: rest =>
      if bool_decide (name ∈ seen) then Some name
      else first_duplicate (name :: seen) rest
  end.

(** [eval] of the constructor for ASCII names, which normalisation leaves as
    they are: refused when a parameter, [_cls] included, repeats. *)
Definition ascii_eval_new (field_names : list string) : outcome unit :=
  match first_duplicate [] ("_cls" :: field_names) with
  | Some name =>
      Raise (SyntaxError ("duplicate argument '" +:+ name
                          +:+ "' in function definition (<string>, line 1)"))
  | None => Return ()
  end.

Definition ascii_builtins : StrBuiltins :=
  {| isidentifier := ascii_isidentifier;
     iskeyword := λ s, bool_decide (s ∈ kwlist);
     repr := λ s, "'" +:+ s +:+ "'";
     eval_new := ascii_eval_new |}.

Section Examples.
Local Existing Instances test_types test_engine ascii_builtins.

Definition node_n0 : SdkNode := mkSdkNode "n0".
Definition node_n1 : SdkNode := mkSdkNode "n1".

Definition ref_x : NodeOutput := mkNodeOutput node_n0 Integer "x".
Definition ref_y : NodeOutput := mkNodeOutput node_n1 Integer "y".
Definition ref_s : NodeOutput := mkNodeOutput node_n1 Text "s".

(** Not-ready promises. *)
Definition promise_x : Promise := Promise___init__ "x" (PyNodeOutput ref_x).
Definition promise_y : Promise := Promise___init__ "y" (PyNodeOutput ref_y).
Definition promise_s : Promise := Promise___init__ "s" (PyNodeOutput ref_s).

(** A ready promise. *)
Definition promise_five : Promise := Promise___init__ "five" (PyLiteral (IntValue 5)).

(** Plain values. *)
Definition plain_one : Operand := OAny (IntValue 1).
Definition plain_two : Operand := OAny (IntValue 2).
Definition plain_three : Operand := OAny (IntValue 3).

(** Promises whose names [namedtuple] refuses or the class [Output] shadows. *)
Definition promise_underscore : Promise := Promise___init__ "_x" (PyNodeOutput ref_x).
Definition promise_with_overrides : Promise :=
  Promise___init__ "with_overrides" (PyNodeOutput ref_x).

End Examples.

(** ** String representations *)

(** What [ComparisonExpression.__repr__] and [Promise.__repr__] call on a
    literal and on the value of a ready promise: [Literal.short_string()],
    and [str] of a literal and of a node output, all defined outside the
    module. *)
Class Rendering `{!FlyteTypes} : Type := {
  short_string : Literal → string;
  Literal___str__ : Literal → string;
  NodeOutput___str__ : NodeOutput → string;
}.

Section Representations.
Context `{!FlyteTypes} `{!Rendering}.

(** One side of [ComparisonExpression.__repr__]: a node output is rendered as
    [(node_id,var)], anything else through its [short_string()]. *)
Definition side_repr (side : PyValue) : Py string :=
  match side with
  | PyNodeOutput r => mret ("(" +:+ node_id r +:+ "," +:+ NodeOutput_var r +:+ ")")
  | PyLiteral l => mret (short_string l)
  | PyNone => raise (AttributeError "'NoneType' object has no attribute 'short_string'")
  end.

Definition ComparisonExpression___repr__ (self : ComparisonExpression) : Py string :=
  let s := "Comp( " in
  l ← side_repr (ComparisonExpression__lhs self);
  let s := s +:+ l in
  let s := s +:+ " " +:+ ComparisonOps_value (ComparisonExpression__op self) +:+ " " in
  r ← side_repr (ComparisonExpression__rhs self);
  let s := s +:+ r in
  let s := s +:+ " )" in
  mret s.

(** [str] of what [self._val] holds. *)
Definition PyValue___str__ (v : PyValue) : string :=
  match v with
  | PyNone => "None"
  | PyLiteral l => Literal___str__ l
  | PyNodeOutput r => NodeOutput___str__ r
  end.

Definition Promise___repr__ (self : Promise) : Py string :=
  if _promise_ready self then
    mret ("Var(" +:+ _var self +:+ "=" +:+ PyValue___str__ (_val self) +:+ ")")
  else
    r ← Promise_ref self;
    mret ("Promise(" +:+ _var self +:+ "," +:+ node_id r +:+ ")").

(** [str(self.__repr__())]: [str] of a string is that string. *)
Definition Promise___str__ (self : Promise) : Py string :=
  s ← Promise___repr__ self; mret s.

(** Whether a slot holds something, whether it holds a reference, and
    whether both sides of a comparison hold something. *)
Definition is_set (v : PyValue) : bool :=
  match v with PyNone => false | _ => true end.

Definition is_reference (v : PyValue) : bool :=
  match v with PyNodeOutput _ => true | _ => false end.

Definition sides_set (c : ComparisonExpression) : bool :=
  is_set (ComparisonExpression__lhs c) && is_set (ComparisonExpression__rhs c).

(** The same comparison with its two sides exchanged. *)
Definition swap_sides (e : ComparisonExpression) : ComparisonExpression :=
  {| ComparisonExpression__lhs := ComparisonExpression__rhs e;
     ComparisonExpression__op := ComparisonExpression__op e;
     ComparisonExpression__rhs := ComparisonExpression__lhs e |}.

(** The lines a chain prints once its left operand is a conjunction: one per
    operator, from [ConjunctionExpression.__and__] or [__or__]. *)
Definition conj_lines (rest : list (ConjunctionOps * Expression)) : list string :=
  (λ step, "Conj " +:+ op_tag step.1 +:+ " called") <$> rest.

End Representations.

(** The name of each member of [ComparisonOps], as written in the class. *)
Definition ComparisonOps_name (op : ComparisonOps) : string :=
  match op with
  | EQ => "EQ" | NE => "NE" | GT => "GT" | GTE => "GTE" | LT => "LT" | LTE => "LTE"
  end.

(** Renderings for the concrete engine. *)
Definition test_value_str (v : test_value) : string :=
  match v with
  | IntValue n => pretty n
  | TextValue s => s
  end.

Definition test_rendering : @Rendering test_types :=
  {| short_string := test_value_str : @Literal test_types → string;
     Literal___str__ := test_value_str : @Literal test_types → string;
     NodeOutput___str__ := λ r, "NodeOutput(" +:+ NodeOutput_var r +:+ ")" |}.

(** Two names outside ASCII, as their UTF-8 bytes: the micro sign (U+00B5)
    and the Greek small letter mu (U+03BC).  Both are identifiers, and the
    interpreter normalises the first to the second. *)
Definition micro_sign : string := String (ascii_of_nat 194) (String (ascii_of_nat 181) "").
Definition greek_mu : string := String (ascii_of_nat 206) (String (ascii_of_nat 188) "").

Definition normalise (name : string) : string :=
  if decide (name = micro_sign) then greek_mu else name.

(** The built-ins on ASCII names and these two. *)
Definition mu_builtins : StrBuiltins :=
  {| isidentifier := λ s, ascii_isidentifier s || bool_decide (s ∈ [micro_sign; greek_mu]);
     iskeyword := λ s, bool_decide (s ∈ kwlist);
     repr := λ s, "'" +:+ s +:+ "'";
     eval_new := λ names, ascii_eval_new (normalise <$> names) |}.

Definition promise_micro_sign : @Promise test_types :=
  Promise___init__ micro_sign (PyNodeOutput ref_x).
Definition promise_greek_mu : @Promise test_types :=
  Promise___init__ greek_mu (PyNodeOutput ref_y).

(** * Properties *)

(** Unfolds the plumbing of the computation monad. *)
Ltac py_unfold :=
  unfold mbind, mret, Py_mbind, Py_mret, Py_bind, Py_ret, raise, print, lift_outcome in *.

Ltac py_simpl :=
  repeat progress
    (py_unfold;
     unfold Promise_is_ready, Promise_ref, Promise_val, Promise_var, slot_var, resolve in *;
     cbn in *).

Section Properties.
Context `{!FlyteTypes} `{!Engine} `{!StrBuiltins}.

(** ** The enumeration *)

Lemma ComparisonOps_getattr_member name op out :
  assoc_lookup name ComparisonOps_members = Some op →
  ComparisonOps_getattr name out = (Return op, out).
Proof. intros Hm. unfold ComparisonOps_getattr. now rewrite Hm. Qed.

(** The class has no member named [GE] or [LE]: the two operators that name
    them raise before any expression is built, whatever the operands. *)
Lemma Promise___ge___raises (self : Promise) (other : Operand) out :
  Promise___ge__ self other out = (Raise (AttributeError "GE"), out).
Proof. reflexivity. Qed.

Lemma Promise___le___raises (self : Promise) (other : Operand) out :
  Promise___le__ self other out = (Raise (AttributeError "LE"), out).
Proof. reflexivity. Qed.

(** ** Constructing a comparison *)

(** A not-ready promise on the left fills the left slot and fixes the type. *)
Lemma init_lhs_not_ready var r st out :
  init_lhs (OPromise (Promise___init__ var (PyNodeOutput r))) st out
  = (Return {| st_type := Some (sdk_type r); st_lhs := Some r; st_rhs := st_rhs st |}, out).
Proof. reflexivity. Qed.

(** A ready promise is refused on either side, whatever the state. *)
Lemma init_lhs_ready p st out :
  _promise_ready p = true →
  init_lhs (OPromise p) st out
  = (Raise (ValueError "Comparison of completed promise is not allowed."), out).
Proof. intros Hr. unfold init_lhs, Promise_is_ready. py_simpl. now rewrite Hr. Qed.

Lemma init_rhs_ready p st out :
  _promise_ready p = true →
  init_rhs (OPromise p) st out
  = (Raise (ValueError "Comparison of completed promise is not allowed."), out).
Proof. intros Hr. unfold init_rhs, Promise_is_ready. py_simpl. now rewrite Hr. Qed.

(** On a constructed operand the left step either refuses a ready promise or
    returns a state. *)
Lemma init_lhs_constructed lhs st out :
  constructed lhs →
  is_ready_promise lhs = false →
  ∃ st', init_lhs lhs st out = (Return st', out)
         ∧ (is_promise lhs = false → st' = st).
Proof.
  intros Hc Hnr. destruct Hc as [var val | a].
  - destruct val as [ | l | r]; simpl in Hnr; try discriminate.
    eexists. split; [apply init_lhs_not_ready | discriminate].
  - exists st. split; [reflexivity | reflexivity].
Qed.

(** Against a not-ready promise of type [t] on the left, an operand that
    [resolves_to] a value is stored as that value. *)
Lemma ComparisonExpression___init___resolves var r op other v out :
  resolves_to (sdk_type r) other v →
  ComparisonExpression___init__ (OPromise (Promise___init__ var (PyNodeOutput r))) op other out
  = (Return (mkComparisonExpression (PyNodeOutput r) op v), out).
Proof.
  intros Hres. unfold ComparisonExpression___init__.
  destruct Hres as [var' r' Ht | a l Hconv].
  - py_simpl. rewrite decide_False by (intros Hne; apply Hne; now symmetry).
    reflexivity.
  - py_simpl. rewrite Hconv. reflexivity.
Qed.

(** Conversely, against a not-ready promise on the left nothing else is
    accepted: if the construction returns, the other operand [resolves_to]
    what is stored, and nothing was printed. *)
Lemma ComparisonExpression___init___only_if var r op other e out out' :
  constructed other →
  ComparisonExpression___init__ (OPromise (Promise___init__ var (PyNodeOutput r))) op other out
  = (Return e, out') →
  ∃ v, resolves_to (sdk_type r) other v
       ∧ e = mkComparisonExpression (PyNodeOutput r) op v ∧ out' = out.
Proof.
  intros Hc. unfold ComparisonExpression___init__.
  destruct Hc as [var' val | a].
  - destruct val as [ | l | r']; py_simpl; try discriminate.
    destruct (decide (sdk_type r ≠ sdk_type r')) as [Hne | Heq]; py_simpl; [discriminate | ].
    intros [= <- <-]. exists (PyNodeOutput r'). repeat split.
    constructor. symmetry. now apply dec_stable.
  - py_simpl.
    destruct (python_value_to_idl_literal current_context (OAny a) (sdk_type r)) as [l | err]
      eqn:Hconv; [ | discriminate].
    intros [= <- <-]. exists (PyLiteral l). repeat split. now constructor.
Qed.

(** C1, as amended.  For every not-ready promise and every operand that is a
    not-ready promise of the same declared type or a native value the engine
    converts to that type, the operators [==], [!=], [>] and [<] return a
    comparison expression (no truth value) whose operator is EQ, NE, GT and
    LT, whose left side is the promise's reference and whose right side is
    the other operand's reference or literal; nothing is printed. *)
Theorem Promise_comparison_operators var r other v out :
  resolves_to (sdk_type r) other v →
  let p := Promise___init__ var (PyNodeOutput r) in
  let built op := (Return (mkComparisonExpression (PyNodeOutput r) op v), out) in
  Promise___eq__ p other out = built EQ
  ∧ Promise___ne__ p other out = built NE
  ∧ Promise___gt__ p other out = built GT
  ∧ Promise___lt__ p other out = built LT.
Proof.
  intros Hres p built.
  pose proof (λ op, ComparisonExpression___init___resolves var r op other v out Hres) as Hinit.
  unfold Promise___eq__, Promise___ne__, Promise___gt__, Promise___lt__, compare_as.
  repeat split; py_unfold; simpl ComparisonOps_getattr; cbv beta iota; apply Hinit.
Qed.

(** C2.  Constructing a comparison raises the usage error [ValueError] and
    returns no expression when both operands are plain values, and when
    either operand is a promise that is ready. *)
Theorem ComparisonExpression_rejects lhs op rhs out :
  constructed lhs → constructed rhs →
  (is_promise lhs = false ∧ is_promise rhs = false →
   ComparisonExpression___init__ lhs op rhs out
   = (Raise (ValueError "Either LHS or RHS should be a promise"), out))
  ∧ (is_ready_promise lhs = true ∨ is_ready_promise rhs = true →
     ComparisonExpression___init__ lhs op rhs out
     = (Raise (ValueError "Comparison of completed promise is not allowed."), out)).
Proof.
  intros Hl Hr. split.
  - intros [Hpl Hpr]. destruct lhs, rhs; try discriminate. reflexivity.
  - intros Hready. unfold ComparisonExpression___init__.
    destruct (is_ready_promise lhs) eqn:Elhs.
    + destruct lhs as [p | a]; [ | discriminate].
      py_unfold. now rewrite init_lhs_ready.
    + destruct Hready as [Hready | Hready]; [discriminate | ].
      destruct rhs as [q | b]; [ | discriminate].
      destruct (init_lhs_constructed lhs
                  {| st_type := None; st_lhs := None; st_rhs := None |} out Hl Elhs)
        as (st' & Hst & _).
      py_unfold. rewrite Hst. now rewrite init_rhs_ready.
Qed.

(** C3.  For two not-ready promises: when the declared types differ the
    construction raises the type-mismatch [ValueError], naming the two
    variables; when they are equal it returns an expression whose [lhs],
    [rhs] and [op] accessors give the two references and the operator
    passed in. *)
Theorem ComparisonExpression_two_promises var1 r1 var2 r2 op out :
  let p1 := Promise___init__ var1 (PyNodeOutput r1) in
  let p2 := Promise___init__ var2 (PyNodeOutput r2) in
  let construct := ComparisonExpression___init__ (OPromise p1) op (OPromise p2) in
  (sdk_type r1 ≠ sdk_type r2 →
   construct out
   = (Raise (ValueError ("Comparison between non comparable types "
                         +:+ NodeOutput_var r1 +:+ " & " +:+ NodeOutput_var r2)), out))
  ∧ (sdk_type r1 = sdk_type r2 →
     ∃ e, construct out = (Return e, out)
          ∧ ComparisonExpression_lhs e out = (Return (PyNodeOutput r1), out)
          ∧ ComparisonExpression_rhs e out = (Return (PyNodeOutput r2), out)
          ∧ ComparisonExpression_op e out = (Return op, out)).
Proof.
  intros p1 p2 construct. subst construct p1 p2. split.
  - intros Hne. unfold ComparisonExpression___init__. py_simpl.
    now rewrite decide_True.
  - intros Heq. exists (mkComparisonExpression (PyNodeOutput r1) op (PyNodeOutput r2)).
    split; [ | repeat split].
    apply ComparisonExpression___init___resolves. now constructor.
Qed.

(** ** The accessors of a promise *)

(** C4, as amended.  A promise built from a literal is ready, [val] returns
    the literal and [ref] raises [AttributeError], the attribute never having
    been set.  A promise built from a node output is not ready, [ref]
    returns that node output and [val] returns [None]: it does not fail. *)
Theorem Promise_accessors var out :
  (∀ l, let p := Promise___init__ var (PyLiteral l) in
        Promise_is_ready p out = (Return true, out)
        ∧ Promise_val p out = (Return (PyLiteral l), out)
        ∧ Promise_ref p out
          = (Raise (AttributeError "'Promise' object has no attribute '_ref'"), out))
  ∧ (∀ r, let p := Promise___init__ var (PyNodeOutput r) in
          Promise_is_ready p out = (Return false, out)
          ∧ Promise_ref p out = (Return r, out)
          ∧ Promise_val p out = (Return PyNone, out)).
Proof. split; intros; repeat split. Qed.

(** ** Truth values and logical operators *)

(** C5.  [bool] of any promise, ready or not, and of any comparison or
    conjunction expression raises the usage error [ValueError]; so do [&]
    and [|] with a promise on the left, whatever the other operand. *)
Theorem truth_value_forbidden (p : Promise) (e : Expression) (other : Operand) out :
  Promise___bool__ p out = (Raise (ValueError truth_value_message), out)
  ∧ bool_ e out = (Raise (ValueError truth_value_message), out)
  ∧ Promise___and__ p other out
    = (Raise (ValueError "Cannot perform Logical AND of Promise with other"), out)
  ∧ Promise___or__ p other out
    = (Raise (ValueError "Cannot perform Logical OR of Promise with other"), out).
Proof. repeat split. now destruct e. Qed.

(** ** Chaining logical operators *)

Lemma combine_builds op a b out :
  combine op a b out
  = (Return (Conjunction (ConjunctionExpression___init__ a op b)), out ++ [call_line a op]).
Proof. destruct op, a; reflexivity. Qed.

Lemma left_spine_combine a op b :
  left_spine (Conjunction (ConjunctionExpression___init__ a op b))
  = ((left_spine a).1, (left_spine a).2 ++ [(op, b)]).
Proof. simpl. now destruct (left_spine a). Qed.

(** Chaining never raises, prints one line per operator, and hangs every new
    operand on the right of a node whose left child is all that came before. *)
Lemma chain_left_spine rest : ∀ e out,
  ∃ t out', chain e rest out = (Return t, out')
            ∧ left_spine t = ((left_spine e).1, (left_spine e).2 ++ rest)
            ∧ length out' = length out + length rest.
Proof.
  induction rest as [ | [op e'] rest IH]; intros e out.
  - exists e, out. simpl. rewrite app_nil_r, Nat.add_0_r.
    repeat split. now destruct (left_spine e).
  - destruct (IH (Conjunction (ConjunctionExpression___init__ e op e')) (out ++ [call_line e op]))
      as (t & out' & Hrun & Hspine & Hlen).
    exists t, out'. repeat split.
    + simpl. py_unfold. now rewrite combine_builds.
    + rewrite Hspine, left_spine_combine. simpl. now rewrite <- app_assoc.
    + rewrite Hlen, length_app. simpl. lia.
Qed.

(** The accessors of a conjunction give back what the constructor took. *)
Lemma ConjunctionExpression_accessors lhs op rhs out :
  let e := ConjunctionExpression___init__ lhs op rhs in
  ConjunctionExpression_lhs e out = (Return lhs, out)
  ∧ ConjunctionExpression_op e out = (Return op, out)
  ∧ ConjunctionExpression_rhs e out = (Return rhs, out).
Proof. repeat split. Qed.

(** C6.  [(a & b) | c] returns the conjunction with operator OR whose left
    child is the AND-conjunction of [a] and [b] and whose right child is [c];
    [&] and [|] on a conjunction return a new conjunction with it as the left
    operand; and a chain of operators yields a left-leaning tree: its left
    spine lists the operands in the order they were applied. *)
Theorem chaining_is_left_leaning (a b c : Expression) out :
  (ab ← and_ a b; or_ ab c) out
  = (Return (Conjunction
               (ConjunctionExpression___init__
                  (Conjunction (ConjunctionExpression___init__ a AND b)) OR c)),
     out ++ [call_line a AND; "Conj OR called"])
  ∧ (∀ (t : ConjunctionExpression) other,
       and_ (Conjunction t) other out
       = (Return (Conjunction (ConjunctionExpression___init__ (Conjunction t) AND other)),
          out ++ ["Conj AND called"])
       ∧ or_ (Conjunction t) other out
         = (Return (Conjunction (ConjunctionExpression___init__ (Conjunction t) OR other)),
            out ++ ["Conj OR called"]))
  ∧ (∀ rest, ∃ t out',
       chain a rest out = (Return t, out')
       ∧ left_spine t = ((left_spine a).1, (left_spine a).2 ++ rest)).
Proof.
  repeat split.
  - py_unfold. change (and_ a b) with (combine AND a b).
    rewrite combine_builds.
    change (or_ ?x c) with (combine OR x c). rewrite combine_builds.
    now rewrite <- app_assoc.
  - intros rest. destruct (chain_left_spine rest a out) as (t & out' & Hrun & Hspine & _).
    now exists t, out'.
Qed.

(** ** Result aggregation *)

Lemma mapM_Promise_var ps out :
  mapM Promise_var ps out = (Return (_var <$> ps), out).
Proof.
  revert out. induction ps as [ | p ps IH]; intros out; [reflexivity | ].
  simpl. py_unfold. unfold Promise_var. py_unfold. now rewrite IH.
Qed.

Lemma check_name_valid name out :
  valid_type_name name → check_name name out = (Return (), out).
Proof. intros [Hid Hkw]. unfold check_name. now rewrite Hid, Hkw. Qed.

Lemma for_each_check_name names out :
  Forall valid_type_name names → for_each check_name names out = (Return (), out).
Proof.
  induction 1 as [ | name names Hname _ IH]; [reflexivity | ].
  simpl. py_unfold. now rewrite check_name_valid.
Qed.

Lemma check_fields_fresh names : ∀ seen out,
  Forall (λ name, String.prefix "_" name = false) names →
  NoDup names →
  (∀ name, name ∈ names → name ∉ seen) →
  check_fields seen names out = (Return (), out).
Proof.
  induction names as [ | name names IH]; intros seen out Hpre Hnd Hfresh; [reflexivity | ].
  apply Forall_cons in Hpre as [Hname Hpre]. apply NoDup_cons in Hnd as [Hnotin Hnd].
  simpl. rewrite Hname. rewrite decide_False by (apply Hfresh; left).
  apply IH; [done | done | ].
  intros name' Hin. rewrite elem_of_union, elem_of_singleton.
  intros [-> | Hseen]; [done | ].
  apply (Hfresh name'); [now right | done].
Qed.

(** Each of the two loops either passes, on names that are all acceptable,
    or raises [ValueError]. *)
Lemma check_name_dichotomy name out :
  (valid_type_name name ∧ check_name name out = (Return (), out))
  ∨ (¬ valid_type_name name ∧ ∃ msg, check_name name out = (Raise (ValueError msg), out)).
Proof.
  unfold check_name, valid_type_name.
  destruct (isidentifier name); simpl; [destruct (iskeyword name) | ].
  - right. split; [intros [_ Hkw]; discriminate Hkw | eauto].
  - now left.
  - right. split; [intros [Hid _]; discriminate Hid | eauto].
Qed.

Lemma for_each_check_name_dichotomy names out :
  (Forall valid_type_name names ∧ for_each check_name names out = (Return (), out))
  ∨ (¬ Forall valid_type_name names
     ∧ ∃ msg, for_each check_name names out = (Raise (ValueError msg), out)).
Proof.
  induction names as [ | name names IH]; [left; split; [constructor | reflexivity] | ].
  simpl. py_unfold.
  destruct (check_name_dichotomy name out) as [[Hname Hrun] | [Hname (msg & Hrun)]];
    rewrite Hrun.
  - destruct IH as [[Hall Hrest] | [Hnot Hrest]].
    + left. split; [now constructor | exact Hrest].
    + right. split; [ | exact Hrest].
      intros Hall. apply Forall_cons in Hall as [_ Hall]. tauto.
  - right. split; [ | eauto].
    intros Hall. apply Forall_cons in Hall as [Hname' _]. tauto.
Qed.

Lemma check_fields_dichotomy names : ∀ seen out,
  (fresh_fields seen names ∧ check_fields seen names out = (Return (), out))
  ∨ (¬ fresh_fields seen names
     ∧ ∃ msg, check_fields seen names out = (Raise (ValueError msg), out)).
Proof.
  induction names as [ | name names IH]; intros seen out.
  { left. split; [ | reflexivity]. repeat split; [constructor | constructor | ].
    intros name Hin. now apply not_elem_of_nil in Hin. }
  simpl. destruct (String.prefix "_" name) eqn:Hpre.
  { right. split; [ | eauto]. intros (Hall & _). apply Forall_cons in Hall as [Hpre' _]. congruence. }
  destruct (decide (name ∈ seen)) as [Hseen | Hseen].
  { right. split; [ | eauto]. intros (_ & _ & Hfresh). apply (Hfresh name); [left | done]. }
  destruct (IH ({[name]} ∪ seen) out) as [[(Hall & Hnd & Hfresh) Hrun] | [Hnot Hrun]].
  - left. split; [ | exact Hrun]. repeat split.
    + now constructor.
    + apply NoDup_cons. split; [ | done]. intros Hin. apply (Hfresh name Hin). set_solver.
    + intros name' Hin. apply elem_of_cons in Hin as [-> | Hin]; [done | ].
      specialize (Hfresh name' Hin). set_solver.
  - right. split; [ | exact Hrun]. intros (Hall & Hnd & Hfresh). apply Hnot.
    apply Forall_cons in Hall as [_ Hall]. apply NoDup_cons in Hnd as [Hnotin Hnd].
    repeat split; [done | done | ].
    intros name' Hin. rewrite elem_of_union, elem_of_singleton.
    intros [-> | Hseen']; [done | ]. apply (Hfresh name'); [now right | done].
Qed.

(** With a valid type name and valid, distinct field names the two loops
    pass, and [namedtuple] does what the [eval] of the constructor does. *)
Lemma namedtuple_validated typename names out :
  valid_type_name typename →
  Forall valid_field_name names →
  NoDup names →
  namedtuple typename names out
  = (match eval_new names with
     | Return _ => Return names
     | Raise err => Raise err
     end, out).
Proof.
  intros Htype Hnames Hnd. unfold namedtuple. py_unfold.
  rewrite for_each_check_name.
  - rewrite check_fields_fresh; [ | | done | set_solver].
    + now destruct (eval_new names).
    + eapply Forall_impl; [exact Hnames | ]. now intros name [_ Hpre].
  - constructor; [done | ]. eapply Forall_impl; [exact Hnames | ]. now intros name [Hv _].
Qed.

(** [namedtuple] accepts a valid type name with valid, distinct field names
    for which the constructor is accepted. *)
Lemma namedtuple_accepts typename names out :
  valid_type_name typename →
  Forall valid_field_name names →
  NoDup names →
  eval_new names = Return () →
  namedtuple typename names out = (Return names, out).
Proof.
  intros Htype Hnames Hnd Heval.
  rewrite namedtuple_validated by done. now rewrite Heval.
Qed.

Lemma zip_fmap_fst {A B} (f : A → B) (xs : list A) : (zip (f <$> xs) xs).*1 = f <$> xs.
Proof. induction xs as [ | x xs IH]; [done | ]. simpl. f_equal. exact IH. Qed.

Lemma zip_fmap_snd {A B} (f : A → B) (xs : list A) : (zip (f <$> xs) xs).*2 = xs.
Proof. induction xs as [ | x xs IH]; [done | ]. simpl. f_equal. exact IH. Qed.

(** With distinct names, looking a field up by its name finds its value. *)
Lemma assoc_lookup_zip ps : ∀ i p,
  NoDup (_var <$> ps) →
  ps !! i = Some p →
  assoc_lookup (_var p) (zip (_var <$> ps) ps) = Some p.
Proof.
  induction ps as [ | q ps IH]; intros i p Hnd Hi; [done | ].
  simpl in Hnd. apply NoDup_cons in Hnd as [Hnotin Hnd].
  destruct i as [ | i]; simpl in *.
  - injection Hi as ->. now rewrite decide_True.
  - rewrite decide_False; [now apply (IH i) | ].
    intros Heq. apply Hnotin. rewrite Heq.
    apply list_elem_of_fmap. exists p. split; [done | ].
    now apply list_elem_of_lookup_2 with i.
Qed.

(** On any other names [namedtuple] raises [ValueError], before it comes to
    the constructor. *)
Lemma namedtuple_refuses typename names out :
  ¬ (valid_type_name typename ∧ Forall valid_field_name names ∧ NoDup names) →
  ∃ msg, namedtuple typename names out = (Raise (ValueError msg), out).
Proof.
  intros Hnot. unfold namedtuple. py_unfold.
  destruct (for_each_check_name_dichotomy (typename :: names) out)
    as [[Hall Hrun] | [_ (msg & Hrun)]]; rewrite Hrun; [ | eauto].
  destruct (check_fields_dichotomy names ∅ out)
    as [[(Hpre & Hnd & _) Hrun'] | [_ (msg & Hrun')]]; rewrite Hrun'; [ | eauto].
  exfalso. apply Hnot. apply Forall_cons in Hall as [Htype Hall].
  repeat split; [apply Htype | apply Htype | | done].
  apply Forall_forall. intros name Hin. split.
  - now apply (proj1 (Forall_forall _ _) Hall).
  - now apply (proj1 (Forall_forall _ _) Hpre).
Qed.

(** So two or more promises with other names are not aggregated. *)
Lemma create_task_output_refuses ps out :
  2 ≤ length ps →
  ¬ (valid_type_name "TaskOutput" ∧ Forall valid_field_name (_var <$> ps) ∧ NoDup (_var <$> ps)) →
  ∃ msg, create_task_output (ArgList ps) out = (Raise (ValueError msg), out).
Proof.
  intros Hlen Hnot. unfold create_task_output.
  rewrite decide_False by lia. rewrite decide_False by lia.
  py_unfold. rewrite mapM_Promise_var.
  destruct (namedtuple_refuses "TaskOutput" (_var <$> ps) out Hnot) as (msg & Hrun).
  rewrite Hrun. eauto.
Qed.

(** C7, as amended.  Aggregating [None] or an empty list returns [None];
    aggregating a one-element list returns its element; aggregating two or
    more promises whose names are distinct valid field names (identifiers
    that are not keywords and do not start with an underscore) and are
    accepted together as the parameters of the aggregate's constructor (the
    interpreter refuses names that are the same once normalised) returns an
    aggregate whose fields are the names of the promises and whose values are
    the promises, both in the input order, and looking a name other than
    [with_overrides] up on the aggregate gives the promise of that name. *)
Theorem create_task_output_shapes out :
  create_task_output ArgNone out = (Return OutNone, out)
  ∧ create_task_output (ArgList []) out = (Return OutNone, out)
  ∧ (∀ x, create_task_output (ArgList [x]) out = (Return (OutPromise x), out))
  ∧ (∀ ps,
       2 ≤ length ps →
       valid_type_name "TaskOutput" →
       Forall valid_field_name (_var <$> ps) →
       NoDup (_var <$> ps) →
       eval_new (_var <$> ps) = Return () →
       ∃ o, create_task_output (ArgList ps) out = (Return (OutTuple o), out)
            ∧ Output__fields o = _var <$> ps
            ∧ o.*2 = ps
            ∧ ∀ i p, ps !! i = Some p → _var p ≠ "with_overrides" →
                     Output___getattribute__ o (_var p) out = (Return (AttrField p), out)).
Proof.
  repeat split.
  intros ps Hlen Htype Hnames Hnd Heval.
  exists (zip (_var <$> ps) ps). repeat split.
  - unfold create_task_output.
    rewrite decide_False by lia. rewrite decide_False by lia.
    py_unfold. rewrite mapM_Promise_var. now rewrite namedtuple_accepts.
  - apply zip_fmap_fst.
  - apply zip_fmap_snd.
  - intros i p Hi Hname. unfold Output___getattribute__.
    rewrite decide_False by done. now rewrite (assoc_lookup_zip ps i).
Qed.

(** C10.  A bare promise passed in place of a list is returned as it is,
    like the element of a one-element list. *)
Theorem create_task_output_bare_promise (p : Promise) out :
  create_task_output (ArgPromise p) out = (Return (OutPromise p), out)
  ∧ create_task_output (ArgPromise p) out = create_task_output (ArgList [p]) out.
Proof. split; reflexivity. Qed.

(** ** Overrides *)

(** On a promise, [with_overrides] returns the promise itself; all it does
    besides is print the node it would forward to, when the promise is not
    ready.  Its arguments play no part. *)
Lemma Promise_with_overrides_inert var val args kwargs out :
  let p := Promise___init__ var val in
  Promise_with_overrides p args kwargs out = (Return p, out ++ forwarding_lines p).
Proof.
  destruct val; simpl; unfold Promise_with_overrides; py_simpl;
    unfold forwarding_lines; simpl; now rewrite ?app_nil_r.
Qed.

(** On an aggregate whose first field is not named [with_overrides], the call
    goes to the value of the first field and to no other, and the aggregate
    is returned. *)
Lemma Output_with_overrides_first_field name var val (rest : Output) args kwargs out :
  name ≠ "with_overrides" →
  let p := Promise___init__ var val in
  let o : Output := (name, p) :: rest in
  Output_with_overrides o args kwargs out = (Return o, out ++ forwarding_lines p).
Proof.
  intros Hname p o. unfold Output_with_overrides. py_unfold. simpl.
  unfold Output___getattribute__. rewrite decide_False by done.
  simpl. rewrite decide_True by done. py_unfold. simpl.
  py_unfold. subst p. now rewrite Promise_with_overrides_inert.
Qed.

(** When the first field is named [with_overrides], the lookup finds the
    method of the class instead of the field, and the call fails. *)
Lemma Output_with_overrides_shadowed p (rest : Output) args kwargs out :
  Output_with_overrides (("with_overrides", p) :: rest) args kwargs out
  = (Raise (AttributeError "'function' object has no attribute 'with_overrides'"), out).
Proof. reflexivity. Qed.

End Properties.

(** * Further properties of the module *)

Section ComparisonProperties.
Context `{!FlyteTypes} `{!Engine} `{!StrBuiltins}.

(** ** Operators that name no member *)

(** X1.  Looking a member of [ComparisonOps] up by name finds it for the six names
    of the class and for no other name.  [Promise.__ge__] and [__le__] ask
    for [GE] and [LE], which are not among them: [>=] and [<=] on a promise
    raise [AttributeError] whatever the two operands are, and build and
    print nothing. *)
Theorem comparison_member_lookup (name : string) (self : Promise) (other : Operand) out :
  (∀ op, ComparisonOps_getattr (ComparisonOps_name op) out = (Return op, out))
  ∧ (∀ op out', ComparisonOps_getattr name out = (Return op, out') →
                name = ComparisonOps_name op ∧ out' = out)
  ∧ Promise___ge__ self other out = (Raise (AttributeError "GE"), out)
  ∧ Promise___le__ self other out = (Raise (AttributeError "LE"), out).
Proof.
  split; [now intros [] | ]. split; [ | split; reflexivity].
  intros op out'. unfold ComparisonOps_getattr. simpl.
  repeat (case_decide; [subst name; intros [= <- <-]; now split | ]).
  discriminate.
Qed.

(** ** What a constructed comparison looks like *)

(** Every way the constructor can return, as one case analysis: the left
    operand is a not-ready promise with a reference or a plain value, and so
    is the right one, not both plain. *)
Lemma ComparisonExpression___init___returns lhs op rhs e out out' :
  ComparisonExpression___init__ lhs op rhs out = (Return e, out') →
  out' = out
  ∧ ((∃ p q r1 r2, lhs = OPromise p ∧ rhs = OPromise q
                   ∧ _promise_ready p = false ∧ _promise_ready q = false
                   ∧ _ref p = Some r1 ∧ _ref q = Some r2
                   ∧ sdk_type r1 = sdk_type r2
                   ∧ e = mkComparisonExpression (PyNodeOutput r1) op (PyNodeOutput r2))
     ∨ (∃ p r a l, lhs = OPromise p ∧ rhs = OAny a
                   ∧ _promise_ready p = false ∧ _ref p = Some r
                   ∧ python_value_to_idl_literal current_context (OAny a) (sdk_type r) = Return l
                   ∧ e = mkComparisonExpression (PyNodeOutput r) op (PyLiteral l))
     ∨ (∃ a q r l, lhs = OAny a ∧ rhs = OPromise q
                   ∧ _promise_ready q = false ∧ _ref q = Some r
                   ∧ python_value_to_idl_literal current_context (OAny a) (sdk_type r) = Return l
                   ∧ e = mkComparisonExpression (PyLiteral l) op (PyNodeOutput r))).
Proof.
  unfold ComparisonExpression___init__.
  destruct lhs as [[v1 ready1 val1 [r1 | ]] | a], rhs as [[v2 ready2 val2 [r2 | ]] | b];
    try destruct ready1; try destruct ready2; py_simpl; try discriminate.
  - destruct (decide (sdk_type r1 ≠ sdk_type r2)) as [Hne | Heq]; py_simpl; [discriminate | ].
    intros [= <- <-]. split; [done | ]. left.
    eexists _, _, r1, r2. repeat split. now apply dec_stable.
  - destruct (python_value_to_idl_literal current_context (OAny b) (sdk_type r1)) as [l | err]
      eqn:Hconv; [ | discriminate].
    intros [= <- <-]. split; [done | ]. right. left.
    eexists _, r1, b, l. repeat split. exact Hconv.
  - destruct (python_value_to_idl_literal current_context (OAny a) (sdk_type r2)) as [l | err]
      eqn:Hconv; [ | discriminate].
    intros [= <- <-]. split; [done | ]. right. right.
    eexists a, _, r2, l. repeat split. exact Hconv.
Qed.

(** X2.  Whatever the operands, a comparison the constructor returns has both
    sides set (never [None]), at least one of them a node-output reference,
    the operator it was given, and equal declared types if both sides are
    references; and constructing it printed nothing. *)
Theorem ComparisonExpression_invariant lhs op rhs e out out' :
  ComparisonExpression___init__ lhs op rhs out = (Return e, out') →
  out' = out
  ∧ ComparisonExpression__op e = op
  ∧ is_set (ComparisonExpression__lhs e) = true
  ∧ is_set (ComparisonExpression__rhs e) = true
  ∧ is_reference (ComparisonExpression__lhs e) || is_reference (ComparisonExpression__rhs e) = true
  ∧ (∀ r1 r2, ComparisonExpression__lhs e = PyNodeOutput r1 →
              ComparisonExpression__rhs e = PyNodeOutput r2 →
              sdk_type r1 = sdk_type r2).
Proof.
  intros Hrun. apply ComparisonExpression___init___returns in Hrun as [-> Hcases].
  split; [done | ].
  destruct Hcases as [(p & q & r1 & r2 & _ & _ & _ & _ & _ & _ & Ht & ->)
                     | [(p & r & a & l & _ & _ & _ & _ & _ & ->)
                       | (a & q & r & l & _ & _ & _ & _ & _ & ->)]];
    simpl; repeat split; try discriminate.
  now intros ? ? [= <-] [= <-].
Qed.

(** X3.  A plain operand on either side of a not-ready promise is handed to the
    engine with the declared type of the promise; the literal that comes
    back is stored on that side, and an exception of the engine is raised
    unchanged. *)
Theorem plain_operand_is_converted var r (a : Any) op out :
  let p := OPromise (Promise___init__ var (PyNodeOutput r)) in
  let converted := python_value_to_idl_literal current_context (OAny a) (sdk_type r) in
  ComparisonExpression___init__ p op (OAny a) out
  = (match converted with
     | Return l => Return (mkComparisonExpression (PyNodeOutput r) op (PyLiteral l))
     | Raise err => Raise err
     end, out)
  ∧ ComparisonExpression___init__ (OAny a) op p out
    = (match converted with
       | Return l => Return (mkComparisonExpression (PyLiteral l) op (PyNodeOutput r))
       | Raise err => Raise err
       end, out).
Proof.
  intros p converted. subst p converted. unfold ComparisonExpression___init__. py_simpl.
  now destruct (python_value_to_idl_literal current_context (OAny a) (sdk_type r)).
Qed.

(** X4.  The constructor treats its two operands alike: it returns on [lhs] and
    [rhs] exactly when it returns on [rhs] and [lhs], and the two
    expressions have the same sides, exchanged, under the same operator (the
    operator is not mirrored). *)
Theorem ComparisonExpression_sides_exchange lhs op rhs e out out' :
  ComparisonExpression___init__ lhs op rhs out = (Return e, out')
  ↔ ComparisonExpression___init__ rhs op lhs out = (Return (swap_sides e), out').
Proof.
  assert (Hones : ∀ x y c, ComparisonExpression___init__ x op y out = (Return c, out') →
                           ComparisonExpression___init__ y op x out
                           = (Return (swap_sides c), out')).
  { intros x y c Hrun.
    apply ComparisonExpression___init___returns in Hrun as [-> Hcases].
    unfold ComparisonExpression___init__.
    destruct Hcases as [(p & q & r1 & r2 & -> & -> & Hp & Hq & Hr1 & Hr2 & Ht & ->)
                       | [(p & r & a & l & -> & -> & Hp & Hr & Hconv & ->)
                         | (a & q & r & l & -> & -> & Hq & Hr & Hconv & ->)]];
      py_simpl.
    - rewrite Hq, Hr2, Hp, Hr1. py_simpl.
      rewrite decide_False by (intros Hne; now apply Hne). reflexivity.
    - rewrite Hp, Hr. py_simpl. now rewrite Hconv.
    - rewrite Hq, Hr. py_simpl. now rewrite Hconv. }
  split; [apply Hones | ].
  intros Hrun. apply Hones in Hrun. now destruct e.
Qed.

End ComparisonProperties.

Section ExpressionProperties.
Context `{!FlyteTypes} `{!Engine} `{!StrBuiltins} `{!Rendering}.

(** ** What chaining prints *)

Lemma chain_conjunction_trace rest : ∀ (c : ConjunctionExpression) out,
  ∃ t, chain (Conjunction c) rest out = (Return t, out ++ conj_lines rest).
Proof.
  induction rest as [ | [op e'] rest IH]; intros c out.
  - exists (Conjunction c). simpl. now rewrite app_nil_r.
  - destruct (IH (ConjunctionExpression___init__ (Conjunction c) op e')
                 (out ++ [call_line (Conjunction c) op])) as (t & Hrun).
    exists t. simpl. py_unfold. rewrite combine_builds, Hrun.
    now rewrite <- app_assoc.
Qed.

(** X5.  When one or more operators are applied one after the other, each to
    the expression built so far and a further operand,
    [((e op e') op1 e1) op2 e2 ...], nothing is raised and one line is
    printed per operator: the first names the class of [e], and every later
    one comes from [ConjunctionExpression], the left operand being then the
    conjunction just built.  (Operators grouped otherwise, as Python groups
    [a | b & c], are not such a sequence.) *)
Theorem chain_print_trace (e : Expression) op e' rest out :
  ∃ t, chain e ((op, e') :: rest) out
       = (Return t, out ++ call_line e op :: conj_lines rest).
Proof.
  destruct (chain_conjunction_trace rest (ConjunctionExpression___init__ e op e')
              (out ++ [call_line e op])) as (t & Hrun).
  exists t. simpl. py_unfold. rewrite combine_builds, Hrun.
  now rewrite <- app_assoc.
Qed.

(** ** String representations *)

Lemma append_assoc (s t u : string) : (s +:+ t) +:+ u = s +:+ t +:+ u.
Proof. induction s as [ | a s IH]; [done | ]. exact (f_equal (String a) IH). Qed.

Lemma side_repr_outcome side out :
  (is_set side = true ∧ ∃ s, side_repr side out = (Return s, out))
  ∨ (is_set side = false
     ∧ side_repr side out
       = (Raise (AttributeError "'NoneType' object has no attribute 'short_string'"), out)).
Proof. destruct side; simpl; eauto. Qed.

(** What [repr] of a comparison does, by its two sides: the left one is
    rendered first. *)
Lemma ComparisonExpression___repr___outcome (c : ComparisonExpression) out :
  (sides_set c = true
   ∧ ∃ l r, side_repr (ComparisonExpression__lhs c) out = (Return l, out)
            ∧ side_repr (ComparisonExpression__rhs c) out = (Return r, out)
            ∧ ComparisonExpression___repr__ c out
              = (Return ("Comp( " +:+ l +:+ " "
                         +:+ ComparisonOps_value (ComparisonExpression__op c)
                         +:+ " " +:+ r +:+ " )"), out))
  ∨ (sides_set c = false
     ∧ ComparisonExpression___repr__ c out
       = (Raise (AttributeError "'NoneType' object has no attribute 'short_string'"), out)).
Proof.
  unfold ComparisonExpression___repr__, sides_set. py_unfold.
  destruct (side_repr_outcome (ComparisonExpression__lhs c) out)
    as [[-> (l & Hl)] | [-> Hl]]; rewrite Hl; [ | now right].
  destruct (side_repr_outcome (ComparisonExpression__rhs c) out)
    as [[-> (r & Hr)] | [-> Hr]]; rewrite Hr; [left | now right].
  split; [done | ]. exists l, r. repeat split.
  do 2 f_equal. rewrite !append_assoc. reflexivity.
Qed.

(** X6.  [repr] of a comparison returns a string exactly when neither of its
    sides is [None]; when one is, it raises the [AttributeError] of calling
    [short_string] on [None].  Either way it prints nothing. *)
Theorem ComparisonExpression___repr___returns_iff (c : ComparisonExpression) out :
  ((∃ s out', ComparisonExpression___repr__ c out = (Return s, out')) ↔ sides_set c = true)
  ∧ (sides_set c = false →
     ComparisonExpression___repr__ c out
     = (Raise (AttributeError "'NoneType' object has no attribute 'short_string'"), out))
  ∧ ∃ res, ComparisonExpression___repr__ c out = (res, out).
Proof.
  destruct (ComparisonExpression___repr___outcome c out)
    as [[Hset (l & r & _ & _ & Hrun)] | [Hset Hrun]]; rewrite Hrun, Hset.
  - split; [split; eauto | split; [discriminate | eauto]].
  - split; [split; [ | discriminate] | split; eauto].
    intros (s & out' & Heq). discriminate Heq.
Qed.


Lemma prefix_append (s t : string) : String.prefix s (s +:+ t) = true.
Proof.
  induction s as [ | a s IH]; [now destruct t | ].
  simpl. now destruct (ascii_dec a a).
Qed.

Lemma prefix_head_differs (a b : ascii) (s t : string) :
  a ≠ b → String.prefix (String a s) (String b t) = false.
Proof. intros Hne. simpl. destruct (ascii_dec a b) as [Heq | _]; [contradiction | reflexivity]. Qed.

(** X8.  [repr] and [str] of a promise built by the constructor return the same
    string and never raise; the string starts with [Var(] for a ready
    promise and with [Promise(] for one that is not ready. *)
Theorem Promise___repr___by_readiness var val out :
  let p := Promise___init__ var val in
  ∃ s, Promise___repr__ p out = (Return s, out)
       ∧ Promise___str__ p out = (Return s, out)
       ∧ String.prefix "Var(" s = _promise_ready p
       ∧ String.prefix "Promise(" s = negb (_promise_ready p).
Proof.
  destruct val as [ | l | r]; simpl; eexists; (split; [reflexivity | ]);
    (split; [reflexivity | ]);
    split; first [apply prefix_append | now apply prefix_head_differs].
Qed.

End ExpressionProperties.

Section AggregationProperties.
Context `{!FlyteTypes} `{!Engine} `{!StrBuiltins}.

(** ** Overrides on a promise *)

Lemma Promise___init___var var val : _var (Promise___init__ var val) = var.
Proof. now destruct val. Qed.

(** X9.  On a promise built by the constructor, [with_overrides] never raises and
    returns the promise itself whatever arguments it is given; it prints one
    line naming the producing node when the promise is not ready and nothing
    when it is ready, so calling it again on its result does the same once
    more. *)
Theorem Promise_with_overrides_passthrough var val args kwargs args' kwargs' out :
  let p := Promise___init__ var val in
  Promise_with_overrides p args kwargs out = (Return p, out ++ forwarding_lines p)
  ∧ Promise_with_overrides p args' kwargs' out = Promise_with_overrides p args kwargs out
  ∧ (p' ← Promise_with_overrides p args kwargs; Promise_with_overrides p' args' kwargs') out
    = (Return p, out ++ forwarding_lines p ++ forwarding_lines p)
  ∧ length (forwarding_lines p) = (if _promise_ready p then 0 else 1).
Proof.
  intros p. subst p. split; [ | split; [ | split]].
  - apply Promise_with_overrides_inert.
  - now rewrite !Promise_with_overrides_inert.
  - py_unfold. rewrite !Promise_with_overrides_inert. now rewrite <- app_assoc.
  - now destruct val.
Qed.

(** ** When an aggregate is built *)

(** If [namedtuple] returns, it returns the field names it was given, prints
    nothing, and the names were acceptable and the constructor accepted. *)
Lemma namedtuple_returns typename names fields out out' :
  namedtuple typename names out = (Return fields, out') →
  fields = names ∧ out' = out
  ∧ valid_type_name typename ∧ Forall valid_field_name names ∧ NoDup names
  ∧ eval_new names = Return ().
Proof.
  unfold namedtuple. py_unfold.
  destruct (for_each_check_name_dichotomy (typename :: names) out)
    as [[Hall Hrun] | [_ (msg & Hrun)]]; rewrite Hrun; [ | discriminate].
  destruct (check_fields_dichotomy names ∅ out)
    as [[(Hpre & Hnd & _) Hrun'] | [_ (msg & Hrun')]]; rewrite Hrun'; [ | discriminate].
  destruct (eval_new names) as [[] | err] eqn:Heval; [ | discriminate].
  intros [= <- <-]. apply Forall_cons in Hall as [Htype Hall].
  repeat split; [apply Htype | apply Htype | | done].
  apply Forall_forall. intros name Hin.
  split; [now apply (proj1 (Forall_forall _ _) Hall) | now apply (proj1 (Forall_forall _ _) Hpre)].
Qed.

(** X10.  For two or more promises the outcome is decided in two steps.
    Unless their names are valid field names and pairwise distinct, the call
    raises [ValueError].  If they are, it does what the [eval] of the
    aggregate's constructor does: it returns the aggregate, or raises the
    exception of the interpreter.  So an aggregate is returned exactly when
    the names are acceptable and the constructor is accepted.  Nothing is
    printed in any case. *)
Theorem create_task_output_aggregates_iff ps out :
  2 ≤ length ps →
  valid_type_name "TaskOutput" →
  let names := _var <$> ps in
  let acceptable := Forall valid_field_name names ∧ NoDup names in
  (¬ acceptable → ∃ msg, create_task_output (ArgList ps) out = (Raise (ValueError msg), out))
  ∧ (acceptable →
     create_task_output (ArgList ps) out
     = (match eval_new names with
        | Return _ => Return (OutTuple (zip names ps))
        | Raise err => Raise err
        end, out))
  ∧ ((∃ o, create_task_output (ArgList ps) out = (Return (OutTuple o), out))
     ↔ acceptable ∧ eval_new names = Return ()).
Proof.
  intros Hlen Htype names acceptable. subst names acceptable.
  assert (Hrun : create_task_output (ArgList ps) out
                 = (fields ← namedtuple "TaskOutput" (_var <$> ps);
                    mret (OutTuple (zip fields ps))) out).
  { unfold create_task_output. rewrite decide_False by lia. rewrite decide_False by lia.
    py_unfold. now rewrite mapM_Promise_var. }
  assert (Hvalid : Forall valid_field_name (_var <$> ps) ∧ NoDup (_var <$> ps) →
                   create_task_output (ArgList ps) out
                   = (match eval_new (_var <$> ps) with
                      | Return _ => Return (OutTuple (zip (_var <$> ps) ps))
                      | Raise err => Raise err
                      end, out)).
  { intros [Hnames Hnd]. rewrite Hrun. py_unfold.
    rewrite namedtuple_validated by done. now destruct (eval_new (_var <$> ps)). }
  split; [ | split; [exact Hvalid | split]].
  - intros Hnot. rewrite Hrun. py_unfold.
    destruct (namedtuple_refuses "TaskOutput" (_var <$> ps) out) as (msg & Hmsg); [tauto | ].
    rewrite Hmsg. eauto.
  - intros (o & Hret). rewrite Hrun in Hret. py_unfold.
    destruct (namedtuple "TaskOutput" (_var <$> ps) out) as [[fields | err] out'] eqn:Hnt;
      [ | discriminate].
    apply namedtuple_returns in Hnt as (_ & _ & _ & Hnames & Hnd & Heval). tauto.
  - intros [Hacc Heval]. rewrite (Hvalid Hacc), Heval. eauto.
Qed.

(** X11.  Whatever [create_task_output] returns tells what it was given: [None]
    only for [None] or an empty list, a promise only for that promise, bare
    or alone in a list, and an aggregate only for a list of two or more
    promises, whose names, pairwise distinct, are its fields and which are
    its values, in order.  It never prints. *)
Theorem create_task_output_result_shape promises result out out' :
  create_task_output promises out = (Return result, out') →
  out' = out
  ∧ match result with
    | OutNone => promises = ArgNone ∨ promises = ArgList []
    | OutPromise p => promises = ArgPromise p ∨ promises = ArgList [p]
    | OutTuple o =>
        ∃ ps, promises = ArgList ps ∧ 2 ≤ length ps
              ∧ Output__fields o = _var <$> ps ∧ o.*2 = ps
              ∧ NoDup (Output__fields o)
    end.
Proof.
  destruct promises as [ | p | ps]; simpl.
  - intros [= <- <-]. split; [done | now left].
  - intros [= <- <-]. split; [done | now left].
  - destruct ps as [ | p [ | q ps]].
    + intros [= <- <-]. split; [done | now right].
    + intros [= <- <-]. split; [done | now right].
    + unfold create_task_output.
      rewrite decide_False by (simpl; lia). rewrite decide_False by (simpl; lia).
      py_unfold. rewrite mapM_Promise_var.
      destruct (namedtuple "TaskOutput" (_var <$> p :: q :: ps) out)
        as [[fields | err] out''] eqn:Hnt; [ | discriminate].
      apply namedtuple_returns in Hnt as (-> & -> & _ & _ & Hnd & _).
      intros [= <- <-]. split; [done | ].
      exists (p :: q :: ps). repeat split.
      * simpl. lia.
      * exact (zip_fmap_fst _var (p :: q :: ps)).
      * exact (zip_fmap_snd _var (p :: q :: ps)).
      * change (NoDup (zip (_var <$> p :: q :: ps) (p :: q :: ps)).*1).
        now rewrite zip_fmap_fst.
Qed.

(** ** Overrides on an aggregate *)

(** X12.  On the aggregate of two or more promises with acceptable names for
    which the aggregate's constructor is accepted, the first promise built
    by [Promise.__init__] and not named [with_overrides], the call returns
    the aggregate and prints what the first promise prints: nothing if that
    one is ready, whatever the others are. *)
Theorem aggregate_with_overrides_reaches_first_only var val rest args kwargs out :
  let p := Promise___init__ var val in
  1 ≤ length rest →
  valid_type_name "TaskOutput" →
  Forall valid_field_name (_var <$> p :: rest) →
  NoDup (_var <$> p :: rest) →
  eval_new (_var <$> p :: rest) = Return () →
  var ≠ "with_overrides" →
  ∃ o, create_task_output (ArgList (p :: rest)) out = (Return (OutTuple o), out)
       ∧ Output_with_overrides o args kwargs out = (Return o, out ++ forwarding_lines p).
Proof.
  intros p Hlen Htype Hnames Hnd Heval Hvar.
  exists (zip (_var <$> p :: rest) (p :: rest)). split.
  - unfold create_task_output.
    rewrite decide_False by (simpl; lia). rewrite decide_False by (simpl; lia).
    py_unfold. rewrite mapM_Promise_var. now rewrite namedtuple_accepts.
  - simpl. subst p. rewrite Promise___init___var.
    now apply Output_with_overrides_first_field.
Qed.

End AggregationProperties.

(** ** Joining a location and an identifier *)

Lemma strip_trailing_slash_keeps s :
  ends_with_slash s = false → strip_trailing_slash s = s.
Proof.
  induction s as [ | c s IH]; [done | ].
  simpl. destruct s as [ | c' s].
  - now intros ->.
  - intros Hs. now rewrite IH.
Qed.

Lemma strip_trailing_slash_app s : strip_trailing_slash (s +:+ "/") = s.
Proof.
  induction s as [ | c s IH]; [done | ].
  change (String c s +:+ "/") with (String c (s +:+ "/")).
  simpl. rewrite IH. now destruct s.
Qed.

(** C9.  The join is [<location>/<id>.tar.gz]: for a location that does not
    end in a slash the three parts are put together as they are, and for a
    location written with one more slash at its end that slash is not
    doubled.  The case of the repository's test is the last part. *)
Theorem get_additional_distribution_loc_joins (location identifier : string) :
  (ends_with_slash location = false →
   get_additional_distribution_loc location identifier
   = location +:+ "/" +:+ identifier +:+ ".tar.gz")
  ∧ get_additional_distribution_loc (location +:+ "/") identifier
    = location +:+ "/" +:+ identifier +:+ ".tar.gz"
  ∧ get_additional_distribution_loc "s3://my-s3-bucket/dir" "123abc"
    = "s3://my-s3-bucket/dir/123abc.tar.gz".
Proof.
  unfold get_additional_distribution_loc. repeat split.
  - intros Hs. now rewrite strip_trailing_slash_keeps.
  - now rewrite strip_trailing_slash_app.
Qed.

(** * The properties on the concrete engine *)

Section Instances.
Local Existing Instances test_types test_engine ascii_builtins.

(** C1 as stated fails: with a ready promise as the other operand, [==] on a
    not-ready promise raises and returns no expression. *)
Lemma Promise_eq_ready_operand_raises :
  Promise___eq__ promise_x (OPromise promise_five) []
  = (Raise (ValueError "Comparison of completed promise is not allowed."), [])
  ∧ ¬ ∃ e out, Promise___eq__ promise_x (OPromise promise_five) [] = (Return e, out).
Proof. split; [reflexivity | ]. intros (e & out & Heq). discriminate Heq. Qed.

(** [promise_x < 3], [promise_x == 3] and the like build expressions around
    the literal the engine makes of [3]. *)
Lemma Promise_comparison_operators_witness :
  resolves_to Integer plain_three (PyLiteral (IntValue 3))
  ∧ Promise___eq__ promise_x plain_three []
    = (Return (mkComparisonExpression (PyNodeOutput ref_x) EQ (PyLiteral (IntValue 3))), [])
  ∧ Promise___lt__ promise_x plain_three []
    = (Return (mkComparisonExpression (PyNodeOutput ref_x) LT (PyLiteral (IntValue 3))), []).
Proof.
  assert (Hres : resolves_to (sdk_type ref_x) plain_three (PyLiteral (IntValue 3)))
    by (constructor; reflexivity).
  destruct (Promise_comparison_operators "x" ref_x _ _ [] Hres) as (Heq & _ & _ & Hlt).
  split; [exact Hres | ]. split; [exact Heq | exact Hlt].
Defined.

(** Two plain values, and a not-ready promise against a ready one. *)
Lemma ComparisonExpression_rejects_witness :
  ComparisonExpression___init__ plain_one EQ plain_two []
  = (Raise (ValueError "Either LHS or RHS should be a promise"), [])
  ∧ ComparisonExpression___init__ (OPromise promise_x) GT (OPromise promise_five) []
    = (Raise (ValueError "Comparison of completed promise is not allowed."), []).
Proof.
  split.
  - apply (ComparisonExpression_rejects plain_one EQ plain_two []);
      [constructor | constructor | split; reflexivity].
  - apply (ComparisonExpression_rejects (OPromise promise_x) GT (OPromise promise_five) []);
      [constructor | constructor | right; reflexivity].
Defined.

(** [promise_x] and [promise_s] have different declared types, [promise_x]
    and [promise_y] the same. *)
Lemma ComparisonExpression_two_promises_witness :
  ComparisonExpression___init__ (OPromise promise_x) EQ (OPromise promise_s) []
  = (Raise (ValueError "Comparison between non comparable types x & s"), [])
  ∧ ∃ e, ComparisonExpression___init__ (OPromise promise_x) NE (OPromise promise_y) []
         = (Return e, [])
         ∧ ComparisonExpression_lhs e [] = (Return (PyNodeOutput ref_x), [])
         ∧ ComparisonExpression_rhs e [] = (Return (PyNodeOutput ref_y), [])
         ∧ ComparisonExpression_op e [] = (Return NE, []).
Proof.
  split.
  - apply (ComparisonExpression_two_promises "x" ref_x "s" ref_s EQ []). discriminate.
  - apply (ComparisonExpression_two_promises "x" ref_x "y" ref_y NE []). reflexivity.
Defined.

(** C4 as stated fails: [val] on a not-ready promise returns [None] and
    raises nothing. *)
Lemma Promise_val_not_ready_returns :
  Promise_is_ready promise_x [] = (Return false, [])
  ∧ Promise_val promise_x [] = (Return PyNone, [])
  ∧ ¬ ∃ e out, Promise_val promise_x [] = (Raise e, out).
Proof. repeat split. intros (e & out & Heq). discriminate Heq. Qed.

(** C7 as stated fails: two promises with distinct names, the first of which
    starts with an underscore, are not aggregated: [namedtuple] refuses. *)
Lemma create_task_output_underscore_raises :
  create_task_output (ArgList [promise_underscore; promise_y]) []
  = (Raise (ValueError "Field names cannot start with an underscore: '_x'"), [])
  ∧ ¬ ∃ o out, create_task_output (ArgList [promise_underscore; promise_y]) []
               = (Return (OutTuple o), out).
Proof. split; [reflexivity | ]. intros (o & out & Heq). vm_compute in Heq. discriminate Heq. Qed.

(** [promise_x] and [promise_y] are aggregated under the fields [x] and [y]. *)
Lemma create_task_output_shapes_witness :
  ∃ o, create_task_output (ArgList [promise_x; promise_y]) [] = (Return (OutTuple o), [])
       ∧ Output__fields o = ["x"; "y"]
       ∧ o.*2 = [promise_x; promise_y]
       ∧ Output___getattribute__ o "y" [] = (Return (AttrField promise_y), []).
Proof.
  destruct (create_task_output_shapes []) as (_ & _ & _ & Hmany).
  destruct (Hmany [promise_x; promise_y]) as (o & Hrun & Hfields & Hvalues & Hget).
  - simpl. lia.
  - split; reflexivity.
  - repeat constructor.
  - simpl. apply NoDup_cons. split; [ | apply NoDup_singleton].
    intros Hin. apply list_elem_of_singleton in Hin. discriminate Hin.
  - reflexivity.
  - exists o. repeat split; [exact Hrun | exact Hfields | exact Hvalues | ].
    apply (Hget 1 promise_y); [reflexivity | discriminate].
Defined.

(** C8 fails on an aggregate whose first field is named [with_overrides]: the
    aggregate is built, and the call on it raises instead of returning it. *)
Lemma Output_with_overrides_field_named_with_overrides :
  let o : Output := [("with_overrides", promise_with_overrides); ("y", promise_y)] in
  create_task_output (ArgList [promise_with_overrides; promise_y]) []
  = (Return (OutTuple o), [])
  ∧ Output_with_overrides o [] [] []
    = (Raise (AttributeError "'function' object has no attribute 'with_overrides'"), []).
Proof. split; reflexivity. Qed.

(** On the aggregate of [promise_x] and [promise_y] the call reaches
    [promise_x] only: one line, naming the node of [promise_x]. *)
Lemma Output_with_overrides_example :
  Output_with_overrides [("x", promise_x); ("y", promise_y)] [] [] []
  = (Return [("x", promise_x); ("y", promise_y)], ["Forwarding to node n0"]).
Proof. reflexivity. Qed.

End Instances.

(** A location without a slash at its end. *)
Lemma get_additional_distribution_loc_joins_witness :
  get_additional_distribution_loc "s3://bucket/dir" "abc123" = "s3://bucket/dir/abc123.tar.gz".
Proof.
  destruct (get_additional_distribution_loc_joins "s3://bucket/dir" "abc123") as (Hjoin & _).
  apply Hjoin. reflexivity.
Defined.

(** * The further properties on the concrete engine *)

Section FurtherInstances.
Local Existing Instances test_types test_engine ascii_builtins test_rendering.

(** [promise_x < 3]: a reference on the left, a literal on the right. *)
Lemma ComparisonExpression_invariant_witness :
  let e := mkComparisonExpression (PyNodeOutput ref_x) LT (PyLiteral (IntValue 3)) in
  ComparisonExpression___init__ (OPromise promise_x) LT plain_three [] = (Return e, [])
  ∧ is_set (ComparisonExpression__lhs e) = true
  ∧ is_set (ComparisonExpression__rhs e) = true
  ∧ is_reference (ComparisonExpression__lhs e) || is_reference (ComparisonExpression__rhs e)
    = true.
Proof.
  intros e.
  assert (Hrun : ComparisonExpression___init__ (OPromise promise_x) LT plain_three []
                 = (Return e, [])) by reflexivity.
  destruct (ComparisonExpression_invariant _ _ _ _ _ _ Hrun) as (_ & _ & Hl & Hr & Href & _).
  split; [exact Hrun | ]. split; [exact Hl | ]. split; [exact Hr | exact Href].
Defined.


(** [x] and [y] are acceptable names; [x] twice is not. *)
Lemma create_task_output_aggregates_iff_witness :
  (∃ o, create_task_output (ArgList [promise_x; promise_y]) [] = (Return (OutTuple o), []))
  ∧ ∃ msg, create_task_output (ArgList [promise_x; promise_x]) [] = (Raise (ValueError msg), []).
Proof.
  assert (Htype : valid_type_name "TaskOutput") by (split; reflexivity).
  split.
  - destruct (create_task_output_aggregates_iff [promise_x; promise_y] [])
      as (_ & _ & Hiff); [simpl; lia | exact Htype | ].
    apply Hiff. split; [ | reflexivity].
    split; [repeat constructor | ].
    simpl. apply NoDup_cons. split; [ | apply NoDup_singleton].
    intros Hin. apply list_elem_of_singleton in Hin. discriminate Hin.
  - destruct (create_task_output_aggregates_iff [promise_x; promise_x] [])
      as (Hrefused & _ & _); [simpl; lia | exact Htype | ].
    apply Hrefused.
    intros [_ Hnd]. simpl in Hnd. apply NoDup_cons in Hnd as [Hnotin _].
    apply Hnotin. left.
Defined.

(** The aggregate of [promise_x] and [promise_y] tells its two promises. *)
Lemma create_task_output_result_shape_witness :
  let o : Output := [("x", promise_x); ("y", promise_y)] in
  create_task_output (ArgList [promise_x; promise_y]) [] = (Return (OutTuple o), [])
  ∧ ∃ ps, ArgList [promise_x; promise_y] = ArgList ps ∧ 2 ≤ length ps
          ∧ Output__fields o = _var <$> ps ∧ o.*2 = ps ∧ NoDup (Output__fields o).
Proof.
  intros o.
  assert (Hrun : create_task_output (ArgList [promise_x; promise_y]) []
                 = (Return (OutTuple o), [])) by reflexivity.
  split; [exact Hrun | ].
  exact (proj2 (create_task_output_result_shape _ _ _ _ Hrun)).
Defined.

(** The call on the aggregate of [promise_x] and [promise_y] prints the line
    of [promise_x] alone. *)
Lemma aggregate_with_overrides_reaches_first_only_witness :
  ∃ o, create_task_output (ArgList [promise_x; promise_y]) [] = (Return (OutTuple o), [])
       ∧ Output_with_overrides o [] [] [] = (Return o, ["Forwarding to node n0"]).
Proof.
  apply (aggregate_with_overrides_reaches_first_only "x" (PyNodeOutput ref_x) [promise_y] [] [] []).
  - simpl. lia.
  - split; reflexivity.
  - repeat constructor.
  - simpl. apply NoDup_cons. split; [ | apply NoDup_singleton].
    intros Hin. apply list_elem_of_singleton in Hin. discriminate Hin.
  - reflexivity.
  - discriminate.
Defined.

End FurtherInstances.

(** Names that validation accepts and the interpreter refuses: the micro sign
    and the Greek mu are distinct valid field names, and the constructor
    with both as parameters is a syntax error. *)
Section NormalisedNames.
Local Existing Instances test_types test_engine mu_builtins.

Lemma create_task_output_normalised_names_raise :
  micro_sign ≠ greek_mu
  ∧ valid_field_name micro_sign
  ∧ valid_field_name greek_mu
  ∧ create_task_output (ArgList [promise_micro_sign; promise_greek_mu]) []
    = (Raise (SyntaxError ("duplicate argument '" +:+ greek_mu
                            +:+ "' in function definition (<string>, line 1)")), []).
Proof. repeat split; try reflexivity. discriminate. Qed.

End NormalisedNames.
